(** * LCD1602 over I2C on the S32K144: the display driver of [main.c]

    A shallow embedding of the driver functions of [src/main.c]
    ([LCD_SendByte], [LCD_SendCommand], [LCD_SendData], [LCD_SendString],
    [LCD_Init]) and the properties of the bytes they put on the bus.

    - [uint8_t] values are integers of [Z] with the wrap-around of a store
      into an 8-bit object written as [uint8];
    - the two external services the driver calls, the blocking I2C master
      send and the millisecond delay, are recorded as events of a trace that
      every function threads through a small state monad;
    - the status the I2C driver returns is taken from the world, so that
      nothing is assumed about when the bus succeeds or fails;
    - a [char *] is an index into a memory of characters;
    - of [main], the part that drives the display is embedded: the static
      first line and the passes of the loop from the [sprintf] on, for the
      temperatures the conversion of the ADC readings gives. *)

From Stdlib Require Import ZArith List Lia Bool Ascii String.
Import ListNotations.
Local Open Scope Z_scope.

(** ** Machine integers *)

(** Conversion of an [int] value to [uint8_t]. *)
Definition uint8 (z : Z) : Z := z mod 256.

(** The value of a [char] object passed where a [uint8_t] is expected. *)
Definition uint8_of_char (c : ascii) : Z := Z.of_N (N_of_ascii c).

(** The NUL character that ends a C string. *)
Definition NUL : ascii := Ascii.zero.

(** ** HD44780 command codes (the [#define]s of main.c) *)

Definition LCD_CLEAR_DISPLAY   : Z := 0x01.
Definition LCD_RETURN_HOME     : Z := 0x02.
Definition LCD_ENTRY_MODE_SET  : Z := 0x04.
Definition LCD_DISPLAY_CONTROL : Z := 0x08.
Definition LCD_FUNCTION_SET    : Z := 0x20.
Definition LCD_SET_DDRAM_ADDR  : Z := 0x80.

(** ** Events on the outside world *)

(** What the driver asks of its two collaborators: one blocking master
    transfer ([LPI2C_DRV_MasterSendDataBlocking], with the arguments in the
    order of the call) or one delay ([OSIF_TimeDelay]). *)
Inductive event : Type :=
| EvSend (instance : Z) (txBuff : list Z) (txSize : Z)
         (sendStop : bool) (timeout : Z)
| EvDelay (ms : Z).

Definition is_send (e : event) : bool :=
  match e with EvSend _ _ _ _ _ => true | EvDelay _ => false end.

Definition payload_of (e : event) : list Z :=
  match e with EvSend _ b _ _ _ => b | EvDelay _ => [] end.

(** ** The four bytes of one transfer *)

(** The array [i2c_payload] as [LCD_SendByte] fills it. *)
Definition i2c_payload (data rs_bit : Z) : list Z :=
  let high_nibble := uint8 (Z.land data 0xF0) in
  let low_nibble := uint8 (Z.land (Z.shiftl data 4) 0xF0) in
  [ uint8 (Z.lor (Z.lor (Z.lor high_nibble rs_bit) 0x08) 0x04);
    uint8 (Z.lor (Z.lor high_nibble rs_bit) 0x08);
    uint8 (Z.lor (Z.lor (Z.lor low_nibble rs_bit) 0x08) 0x04);
    uint8 (Z.lor (Z.lor low_nibble rs_bit) 0x08) ].

(** Outcome of a loop run with a bound on the number of loop tests. *)
Inductive outcome (A : Type) : Type :=
| Done (a : A)
| OutOfFuel
| Fault.
Arguments Done {A} a.
Arguments OutOfFuel {A}.
Arguments Fault {A}.

Section Driver.

(** The SDK's [status_t] and the instance number [INST_LPI2C0] come from
    headers that are not part of the sources; the driver is modelled for
    any of them. *)
Variable status_t : Type.
Variable INST_LPI2C0 : Z.

(** The world: the events so far, oldest first, and the status the I2C
    driver will answer to the transfer made after [n] events. *)
Record world : Type := mkWorld {
  trace : list event;
  bus : nat -> status_t
}.

Definition M (A : Type) : Type := world -> A * world.

Definition ret {A} (a : A) : M A := fun w => (a, w).

Definition bind {A B} (m : M A) (k : A -> M B) : M B :=
  fun w => let (a, w') := m w in k a w'.

Notation "x <- m ;; k" := (bind m (fun x => k))
  (at level 61, m at next level, right associativity).
Notation "m ;; k" := (bind m (fun _ => k))
  (at level 61, right associativity).

Definition emit (e : event) : M unit :=
  fun w => (tt, mkWorld (trace w ++ [e]) (bus w)).

(** [status_t LPI2C_DRV_MasterSendDataBlocking(instance, txBuff, txSize,
    sendStop, timeout)]. *)
Definition LPI2C_DRV_MasterSendDataBlocking
    (instance : Z) (txBuff : list Z) (txSize : Z) (sendStop : bool)
    (timeout : Z) : M status_t :=
  fun w =>
    (bus w (List.length (trace w)),
     mkWorld (trace w ++ [EvSend instance txBuff txSize sendStop timeout])
             (bus w)).

(** [void OSIF_TimeDelay(uint32_t delay)]. *)
Definition OSIF_TimeDelay (ms : Z) : M unit := emit (EvDelay ms).

(** [void LCD_SendByte(uint8_t data, uint8_t rs_bit)]. *)
Definition LCD_SendByte (data rs_bit : Z) : M unit :=
  status <- LPI2C_DRV_MasterSendDataBlocking
              INST_LPI2C0 (i2c_payload data rs_bit) 4 true 100 ;;
  ret tt.

(** [void LCD_SendCommand(uint8_t command)]. *)
Definition LCD_SendCommand (command : Z) : M unit :=
  LCD_SendByte command 0.

(** [void LCD_SendData(uint8_t data)]. *)
Definition LCD_SendData (data : Z) : M unit :=
  LCD_SendByte data 1.

(** [void LCD_SendString(char *str)]: [mem] is the memory [str] points
    into and [str] the index of the character it points at.  Each loop
    test uses one unit of [fuel]; a read past the end of [mem] is a
    [Fault]. *)
Fixpoint LCD_SendString (fuel : nat) (mem : list ascii) (str : nat)
    (w : world) : outcome (unit * world) :=
  match fuel with
  | O => OutOfFuel
  | S fuel' =>
      match nth_error mem str with
      | None => Fault
      | Some c =>
          if Ascii.eqb c NUL then Done (tt, w)
          else
            let (_, w') := LCD_SendData (uint8_of_char c) w in
            LCD_SendString fuel' mem (S str) w'
      end
  end.

(** [void LCD_Init(void)]. *)
Definition LCD_Init : M unit :=
  OSIF_TimeDelay 50 ;;
  LCD_SendByte 0x30 0 ;;
  OSIF_TimeDelay 5 ;;
  LCD_SendByte 0x30 0 ;;
  OSIF_TimeDelay 1 ;;
  LCD_SendByte 0x30 0 ;;
  OSIF_TimeDelay 1 ;;
  LCD_SendByte 0x20 0 ;;
  OSIF_TimeDelay 1 ;;
  LCD_SendCommand (uint8 (Z.lor LCD_FUNCTION_SET 0x08)) ;;
  LCD_SendCommand (uint8 (Z.lor LCD_DISPLAY_CONTROL 0x04)) ;;
  LCD_SendCommand (uint8 LCD_CLEAR_DISPLAY) ;;
  OSIF_TimeDelay 2 ;;
  LCD_SendCommand (uint8 (Z.lor LCD_ENTRY_MODE_SET 0x02)) ;;
  LCD_SendCommand (uint8 LCD_RETURN_HOME).

(** The event one call of [LCD_SendByte] leaves on the trace. *)
Definition send_event (data rs_bit : Z) : event :=
  EvSend INST_LPI2C0 (i2c_payload data rs_bit) 4 true 100.

End Driver.

Arguments trace {status_t} w.
Arguments bus {status_t} w.
Arguments mkWorld {status_t} trace bus.
Arguments ret {status_t A} a w.
Arguments bind {status_t A B} m k w.
Arguments emit {status_t} e w.
Arguments OSIF_TimeDelay {status_t} ms w.
Arguments LCD_SendByte {status_t} INST_LPI2C0 data rs_bit w.
Arguments LCD_SendCommand {status_t} INST_LPI2C0 command w.
Arguments LCD_SendData {status_t} INST_LPI2C0 data w.
Arguments LCD_SendString {status_t} INST_LPI2C0 fuel mem str w.
Arguments LCD_Init {status_t} INST_LPI2C0 w.
Arguments LPI2C_DRV_MasterSendDataBlocking {status_t}
  instance txBuff txSize sendStop timeout w.

(** ** The burst as the specification writes it *)

(** The four bytes the specification gives for one byte and one mode flag:
    [hi = byte & 0xF0], [lo = (byte << 4) & 0xF0]. *)
Definition burst_spec (byte mode : Z) : list Z :=
  let hi := Z.land byte 0xF0 in
  let lo := Z.land (Z.shiftl byte 4) 0xF0 in
  [ Z.lor (Z.lor hi mode) 0x0C;
    Z.lor (Z.lor hi mode) 0x08;
    Z.lor (Z.lor lo mode) 0x0C;
    Z.lor (Z.lor lo mode) 0x08 ].

(** Every value of a [uint8_t]. *)
Definition all_bytes : list Z := map Z.of_nat (seq 0 256).

Definition list_Z_eqb (l1 l2 : list Z) : bool :=
  if list_eq_dec Z.eq_dec l1 l2 then true else false.

(** ** C strings *)

(** [mem] holds at index [p] the characters [s], none of them NUL, and
    the terminator right after them. *)
Definition c_string_at (mem : list ascii) (p : nat) (s : list ascii) : Prop :=
  exists pre post,
    mem = pre ++ s ++ NUL :: post /\
    List.length pre = p /\
    Forall (fun c => c <> NUL) s.

(** The buffer [temp_string] of [main] after [sprintf] has written
    ["27 C "] into it; [rest] is what the array holds past the
    terminator. *)
Definition temp_string_27 (rest : list ascii) : list ascii :=
  list_ascii_of_string "27 C " ++ NUL :: rest.

(** The event one call of [LCD_SendData] for the character [c] leaves on
    the trace. *)
Definition data_event (INST : Z) (c : ascii) : event :=
  send_event INST (uint8_of_char c) 1.

(** The event of [LCD_SendData] for a byte given by its value. *)
Definition data_event_of_byte (INST : Z) (byte : Z) : event :=
  send_event INST byte 1.

(** A world with nothing on its trace yet. *)
Definition world0 : world unit := mkWorld [] (fun _ => tt).

(** ** The initialisation steps *)

(** The eight kinds of step of the initialisation, each with the delay
    that follows it where there is one. *)
Inductive init_step : Type :=
| PowerSettle (d : Z)
| Force8BitSync (d : Z)
| SwitchTo4Bit (d : Z)
| FunctionSet
| DisplayControl
| Clear (d : Z)
| EntryMode
| Home.

(** What a step of [LCD_Init] puts on the trace: the transfer of its
    command byte in command mode (the one [LCD_SendByte] makes for it, for
    the synchronisations and the switch to 4-bit as well), then its
    delay. *)
Definition step_events (INST : Z) (s : init_step) : list event :=
  match s with
  | PowerSettle d => [EvDelay d]
  | Force8BitSync d => [send_event INST 0x30 0; EvDelay d]
  | SwitchTo4Bit d => [send_event INST 0x20 0; EvDelay d]
  | FunctionSet => [send_event INST 0x28 0]
  | DisplayControl => [send_event INST 0x0C 0]
  | Clear d => [send_event INST 0x01 0; EvDelay d]
  | EntryMode => [send_event INST 0x06 0]
  | Home => [send_event INST 0x02 0]
  end.

(** The order of the steps and the least delay of each. *)
Definition init_order (steps : list init_step) : Prop :=
  exists d0 d1 d2 d3 d4 d5,
    steps = [ PowerSettle d0; Force8BitSync d1; Force8BitSync d2;
              Force8BitSync d3; SwitchTo4Bit d4; FunctionSet;
              DisplayControl; Clear d5; EntryMode; Home ] /\
    50 <= d0 /\ 5 <= d1 /\ 1 <= d2 /\ 1 <= d3 /\ 1 <= d4 /\ 2 <= d5.

(** The steps [LCD_Init] goes through, with the delays it asks for. *)
Definition LCD_Init_steps : list init_step :=
  [ PowerSettle 50; Force8BitSync 5; Force8BitSync 1; Force8BitSync 1;
    SwitchTo4Bit 1; FunctionSet; DisplayControl; Clear 2; EntryMode; Home ].

(** A raw half-byte transfer in the words of the specification: one nibble
    group alone, the nibble on the upper four bits with the strobe high and
    then low, in command mode with the backlight on. *)
Definition raw_nibble_payload (nibble : Z) : list Z :=
  [ Z.lor (Z.lor (Z.shiftl nibble 4) 0x08) 0x04;
    Z.lor (Z.shiftl nibble 4) 0x08 ].

(** What is seen of an event when a trace is matched against the steps: a
    delay and its length, or a transfer and its bytes. *)
Inductive observation : Type :=
| ObsDelay (ms : Z)
| ObsTransfer (bytes : list Z).

Definition observe (e : event) : observation :=
  match e with
  | EvDelay ms => ObsDelay ms
  | EvSend _ bytes _ _ _ => ObsTransfer bytes
  end.

(** A step in the words of section 4.4 of the specification: the three
    synchronisations and the switch to 4-bit are raw half-byte transfers
    of the nibbles 0x3 and 0x2, the five commands after them are bursts of
    the byte transmitter in command mode. *)
Definition step_observations_spec (s : init_step) : list observation :=
  match s with
  | PowerSettle d => [ObsDelay d]
  | Force8BitSync d => [ObsTransfer (raw_nibble_payload 0x3); ObsDelay d]
  | SwitchTo4Bit d => [ObsTransfer (raw_nibble_payload 0x2); ObsDelay d]
  | FunctionSet => [ObsTransfer (burst_spec 0x28 0)]
  | DisplayControl => [ObsTransfer (burst_spec 0x0C 0)]
  | Clear d => [ObsTransfer (burst_spec 0x01 0); ObsDelay d]
  | EntryMode => [ObsTransfer (burst_spec 0x06 0)]
  | Home => [ObsTransfer (burst_spec 0x02 0)]
  end.

(** A trace that matches the eight steps of section 4.4 exactly: the steps
    in their order, each delay at least its minimum, and nothing else. *)
Definition init_matches_spec (tr : list event) : Prop :=
  exists steps,
    init_order steps /\
    map observe tr = flat_map step_observations_spec steps.

(** The transfers of a trace, in order. *)
Definition transfers (tr : list event) : list (list Z) :=
  map payload_of (filter is_send tr).

(** The reading of the synchronisation steps as raw half-byte transfers:
    the first three transfers of the initialisation carry the nibble 0x3
    alone and the fourth the nibble 0x2 alone. *)
Definition sync_by_raw_nibbles (tr : list event) : Prop :=
  firstn 4 (transfers tr) =
  [ raw_nibble_payload 0x3; raw_nibble_payload 0x3; raw_nibble_payload 0x3;
    raw_nibble_payload 0x2 ].

(** Two payload bytes that differ in the register-select bit, bit 0, and
    in no other bit. *)
Definition differ_in_rs_only (c d : Z) : Prop :=
  Z.lxor c d = 0x01 /\ Z.shiftr c 4 = Z.shiftr d 4.

Definition differ_in_rs_onlyb (c d : Z) : bool :=
  (Z.lxor c d =? 0x01) && (Z.shiftr c 4 =? Z.shiftr d 4).

Fixpoint all_differ_in_rs_onlyb (l1 l2 : list Z) : bool :=
  match l1, l2 with
  | [], [] => true
  | c :: l1, d :: l2 => differ_in_rs_onlyb c d && all_differ_in_rs_onlyb l1 l2
  | _, _ => false
  end.

(** ** Reading a burst back *)

(** What the controller behind the expander latches from one burst: each
    strobe falls on the second byte of its group, whose upper four bits are
    the nibble and whose bit 0 is the register select.  The result is the
    byte, first nibble high, and the register select of the first group. *)
Definition decode_burst (p : list Z) : option (Z * Z) :=
  match p with
  | [_; p1; _; p3] =>
      Some (Z.lor (Z.land p1 0xF0) (Z.shiftr (Z.land p3 0xF0) 4),
            Z.land p1 0x01)
  | _ => None
  end.

(** One strobe: the enable bit, 0x04, is set in the first byte and is the
    only bit that changes to the second. *)
Definition strobe (a b : Z) : Prop :=
  Z.testbit a 2 = true /\ Z.testbit b 2 = false /\ Z.lxor a b = 0x04.

Definition strobeb (a b : Z) : bool :=
  Z.testbit a 2 && negb (Z.testbit b 2) && (Z.lxor a b =? 0x04).

Definition decode_okb (data rs : Z) : bool :=
  match decode_burst (i2c_payload data rs) with
  | Some (d, r) => (d =? data) && (r =? rs)
  | None => false
  end.

Definition strobes_okb (data rs : Z) : bool :=
  match i2c_payload data rs with
  | [p0; p1; p2; p3] => strobeb p0 p1 && strobeb p2 p3
  | _ => false
  end.

Definition or_rs_okb (rs data : Z) : bool :=
  list_Z_eqb (i2c_payload data rs)
             (map (fun b => Z.lor b rs) (i2c_payload data 0))
  && forallb (fun b => (0 <=? b) && (b <? 256)) (i2c_payload data rs).

(** ** What the bus carries *)

(** What the controller reads from the transfers of a trace, in order. *)
Definition decode_trace (tr : list event) : list (option (Z * Z)) :=
  map decode_burst (transfers tr).

(** A payload byte in 8 bits with the backlight bit, 0x08, set and the
    read/write bit, 0x02, clear. *)
Definition payload_byte_okb (b : Z) : bool :=
  (0 <=? b) && (b <? 256) && Z.testbit b 3 && negb (Z.testbit b 1).

(** A transfer as the driver makes them: on the instance [INST], four
    bytes announced as four, with a stop condition and the timeout 100. *)
Definition transfer_okb (INST : Z) (e : event) : bool :=
  match e with
  | EvDelay _ => true
  | EvSend i buf n stop t =>
      (i =? INST) && (n =? 4) && (List.length buf =? 4)%nat && stop &&
      (t =? 100) && forallb payload_byte_okb buf
  end.

Definition bus_discipline (INST : Z) (tr : list event) : Prop :=
  forallb (transfer_okb INST) tr = true.

(** ** The display part of [main] *)

(** The character of a decimal digit. *)
Definition digit_char (d : Z) : ascii := ascii_of_N (Z.to_N (48 + d)).

(** The decimal digits of [n >= 0], the most significant first, at most
    [width] of them. *)
Fixpoint decimal (width : nat) (n : Z) : list ascii :=
  match width with
  | O => []
  | S width' =>
      (if n <? 10 then [] else decimal width' (n / 10))
        ++ [digit_char (n mod 10)]
  end.

(** The number a run of decimal digits stands for. *)
Definition read_decimal (s : list ascii) : Z :=
  fold_left (fun acc c => 10 * acc + (uint8_of_char c - 48)) s 0.

(** The characters [sprintf] produces for the format ["%d C "] and the
    [int] [t]: a minus sign if [t] is negative, the decimal digits of its
    magnitude (an [int] of 32 bits has at most ten), and [" C "]. *)
Definition sprintf_d_C (t : Z) : list ascii :=
  (if t <? 0 then ["-"%char] else [])
    ++ decimal 10 (Z.abs t) ++ [" "; "C"; " "]%char.

(** [sprintf] storing the characters [s] and a terminator at the start of
    the array [buf]; what does not fit in the array is not modelled. *)
Definition sprintf_store (buf s : list ascii) : option (list ascii) :=
  if (List.length s <? List.length buf)%nat
  then Some (s ++ NUL :: skipn (S (List.length s)) buf)
  else None.

(** The string literal ["Temperature:"] in memory. *)
Definition Temperature_literal : list ascii :=
  list_ascii_of_string "Temperature:" ++ [NUL].

(** One pass of the loop of [main] from the [sprintf] on, for the value [t]
    of [g_temperature_celsius]: format into [temp_string], move to the
    second line, write the string, wait a second. *)
Definition main_loop_pass {status_t} (INST : Z) (fuel : nat) (t : Z)
    (temp_string : list ascii) (w : world status_t)
    : outcome (list ascii * world status_t) :=
  match sprintf_store temp_string (sprintf_d_C t) with
  | None => Fault
  | Some temp_string' =>
      let (_, w1) := LCD_SendCommand INST 0xC0 w in
      match LCD_SendString INST fuel temp_string' 0 w1 with
      | Done (_, w2) =>
          let (_, w3) := OSIF_TimeDelay 1000 w2 in
          Done (temp_string', w3)
      | OutOfFuel => OutOfFuel
      | Fault => Fault
      end
  end.

(** The first passes of the loop, one for each temperature of [temps]. *)
Fixpoint main_loop {status_t} (INST : Z) (fuel : nat) (temps : list Z)
    (temp_string : list ascii) (w : world status_t)
    : outcome (list ascii * world status_t) :=
  match temps with
  | [] => Done (temp_string, w)
  | t :: temps' =>
      match main_loop_pass INST fuel t temp_string w with
      | Done (temp_string', w') => main_loop INST fuel temps' temp_string' w'
      | OutOfFuel => OutOfFuel
      | Fault => Fault
      end
  end.

(** What [main] does with the display and the delay service: the
    initialisation, the static first line, then the loop.  The clock, pin,
    watchdog, I2C and ADC set-up calls leave no event of these two
    services; the readings and their conversion are taken as the list
    [temps] of the values [g_temperature_celsius] gets. *)
Definition main_display {status_t} (INST : Z) (fuel : nat) (temps : list Z)
    (temp_string : list ascii) (w : world status_t)
    : outcome (list ascii * world status_t) :=
  let (_, w1) := LCD_Init INST w in
  let (_, w2) := LCD_SendCommand INST (uint8 LCD_CLEAR_DISPLAY) w1 in
  let (_, w3) := OSIF_TimeDelay 2 w2 in
  let (_, w4) := LCD_SendCommand INST 0x80 w3 in
  match LCD_SendString INST fuel Temperature_literal 0 w4 with
  | Done (_, w5) => main_loop INST fuel temps temp_string w5
  | OutOfFuel => OutOfFuel
  | Fault => Fault
  end.

(** The events of one pass of the loop. *)
Definition pass_events (INST : Z) (t : Z) : list event :=
  send_event INST 0xC0 0 :: map (data_event INST) (sprintf_d_C t)
    ++ [EvDelay 1000].

(** The events of the static first line. *)
Definition static_events (INST : Z) : list event :=
  [send_event INST 0x01 0; EvDelay 2; send_event INST 0x80 0]
    ++ map (data_event INST) (list_ascii_of_string "Temperature:").

(** The range of an [int]. *)
Definition is_int (t : Z) : Prop := - 2 ^ 31 <= t < 2 ^ 31.

(** * Properties *)

(** ** Bytes *)

Lemma all_bytes_complete (b : Z) : 0 <= b < 256 -> In b all_bytes.
Proof.
  intros Hb. unfold all_bytes. apply in_map_iff.
  exists (Z.to_nat b). split; [lia|]. apply in_seq. lia.
Qed.

(** A boolean property checked on the 256 bytes holds of every byte. *)
Lemma forall_byte (f : Z -> bool) :
  forallb f all_bytes = true -> forall b, 0 <= b < 256 -> f b = true.
Proof.
  intros Hall b Hb. rewrite forallb_forall in Hall.
  apply Hall, all_bytes_complete, Hb.
Qed.

Lemma list_Z_eqb_eq (l1 l2 : list Z) : list_Z_eqb l1 l2 = true -> l1 = l2.
Proof.
  unfold list_Z_eqb. destruct (list_eq_dec Z.eq_dec l1 l2); congruence.
Qed.

(** The array the code fills is the burst of the specification. *)
Lemma i2c_payload_burst (data rs_bit : Z) :
  0 <= data < 256 -> rs_bit = 0 \/ rs_bit = 1 ->
  i2c_payload data rs_bit = burst_spec data rs_bit.
Proof.
  intros Hd Hrs. apply list_Z_eqb_eq.
  destruct Hrs as [-> | ->];
    [ apply (forall_byte (fun d => list_Z_eqb (i2c_payload d 0) (burst_spec d 0)))
    | apply (forall_byte (fun d => list_Z_eqb (i2c_payload d 1) (burst_spec d 1))) ];
    try assumption; vm_compute; reflexivity.
Qed.

(** ** The monad's equations *)

Lemma LCD_SendByte_eq {status_t} (INST : Z) (data rs_bit : Z)
    (w : world status_t) :
  LCD_SendByte INST data rs_bit w =
  (tt, mkWorld (trace w ++ [send_event INST data rs_bit]) (bus w)).
Proof. reflexivity. Qed.

Lemma OSIF_TimeDelay_eq {status_t} (ms : Z) (w : world status_t) :
  OSIF_TimeDelay ms w = (tt, mkWorld (trace w ++ [EvDelay ms]) (bus w)).
Proof. reflexivity. Qed.

(** ** C1 *)

(** C1. For every 8-bit [byte] and both mode flags ([rs = 0] command,
    [rs = 1] data), [LCD_SendByte] hands the transport exactly the four
    bytes [(hi|rs|0x0C), (hi|rs|0x08), (lo|rs|0x0C), (lo|rs|0x08)] with
    [hi = byte & 0xF0] and [lo = (byte << 4) & 0xF0], and nothing else;
    for byte [0x20] as a command these are [0x2C, 0x28, 0x0C, 0x08]. *)
Theorem LCD_SendByte_payload {status_t} (INST : Z) (byte rs : Z)
    (w : world status_t) :
  0 <= byte < 256 -> rs = 0 \/ rs = 1 ->
  (exists e,
      LCD_SendByte INST byte rs w = (tt, mkWorld (trace w ++ [e]) (bus w)) /\
      is_send e = true /\
      payload_of e =
        [ Z.lor (Z.lor (Z.land byte 0xF0) rs) 0x0C;
          Z.lor (Z.lor (Z.land byte 0xF0) rs) 0x08;
          Z.lor (Z.lor (Z.land (Z.shiftl byte 4) 0xF0) rs) 0x0C;
          Z.lor (Z.lor (Z.land (Z.shiftl byte 4) 0xF0) rs) 0x08 ]) /\
  (exists e,
      LCD_SendByte INST 0x20 0 w = (tt, mkWorld (trace w ++ [e]) (bus w)) /\
      is_send e = true /\
      payload_of e = [0x2C; 0x28; 0x0C; 0x08]).
Proof.
  intros Hb Hrs. split.
  - exists (send_event INST byte rs). rewrite LCD_SendByte_eq.
    repeat split. simpl payload_of.
    rewrite (i2c_payload_burst byte rs Hb Hrs). reflexivity.
  - exists (send_event INST 0x20 0). rewrite LCD_SendByte_eq.
    repeat split.
Qed.

Lemma LCD_SendByte_payload_witness :
  (0 <= 0xA5 < 256) /\ (1 = 0 \/ 1 = 1) /\
  exists e,
    LCD_SendByte 0 0xA5 1 (mkWorld [] (fun _ : nat => tt)) =
      (tt, mkWorld [e] (fun _ : nat => tt)) /\
    payload_of e = [0xAD; 0xA9; 0x5D; 0x59].
Proof.
  split; [lia|]. split; [right; reflexivity|].
  destruct (LCD_SendByte_payload 0 0xA5 1 (mkWorld [] (fun _ : nat => tt))
              ltac:(lia) (or_intror eq_refl)) as [[e [He [_ Hp]]] _].
  exists e. split; [exact He | exact Hp].
Defined.

(** ** The string writer *)

Lemma NUL_eqb_false (c : ascii) : c <> NUL -> Ascii.eqb c NUL = false.
Proof. intros Hc. apply Ascii.eqb_neq, Hc. Qed.

Lemma nth_error_middle {A} (pre : list A) (x : A) (post : list A) :
  nth_error (pre ++ x :: post) (List.length pre) = Some x.
Proof.
  rewrite nth_error_app2 by lia. rewrite Nat.sub_diag. reflexivity.
Qed.

(** The loop on a terminated run of characters: it needs one loop test per
    character and one for the terminator, and sends the characters in
    order. *)
Lemma LCD_SendString_run {status_t} (INST : Z) (s : list ascii) :
  Forall (fun c => c <> NUL) s ->
  forall (fuel : nat) (pre post : list ascii) (w : world status_t),
    LCD_SendString INST fuel (pre ++ s ++ NUL :: post) (List.length pre) w =
    if (List.length s <? fuel)%nat
    then Done (tt, mkWorld (trace w ++ map (data_event INST) s) (bus w))
    else OutOfFuel.
Proof.
  induction 1 as [| c s Hc Hs IH]; intros fuel pre post w.
  - destruct fuel as [| fuel]; [reflexivity|].
    simpl LCD_SendString. simpl app at 2.
    rewrite nth_error_middle. simpl.
    rewrite app_nil_r. destruct w; reflexivity.
  - destruct fuel as [| fuel]; [reflexivity|].
    simpl LCD_SendString. simpl app at 2.
    rewrite nth_error_middle, (NUL_eqb_false c Hc).
    unfold LCD_SendData, LCD_SendByte, bind, LPI2C_DRV_MasterSendDataBlocking, ret.
    replace (pre ++ c :: s ++ NUL :: post)
      with ((pre ++ [c]) ++ s ++ NUL :: post)
      by (rewrite <- app_assoc; reflexivity).
    replace (S (List.length pre)) with (List.length (pre ++ [c]))
      by (rewrite length_app; simpl; lia).
    rewrite IH. simpl trace. simpl bus.
    change (List.length (c :: s) <? S fuel)%nat
      with (List.length s <? fuel)%nat.
    destruct (List.length s <? fuel)%nat; [|reflexivity].
    rewrite <- app_assoc. reflexivity.
Qed.

(** Folding [LCD_SendData] over characters appends their events. *)
Lemma fold_LCD_SendData {status_t} (INST : Z) (s : list ascii)
    (w : world status_t) :
  fold_left (fun w c => snd (LCD_SendData INST (uint8_of_char c) w)) s w =
  mkWorld (trace w ++ map (data_event INST) s) (bus w).
Proof.
  revert w. induction s as [| c s IH]; intros w.
  - simpl. rewrite app_nil_r. destruct w; reflexivity.
  - simpl fold_left. rewrite IH. simpl. rewrite <- app_assoc. reflexivity.
Qed.

(** C2. On a NUL-terminated string of [N] characters [LCD_SendString]
    makes exactly [N] transmissions, each the one [LCD_SendData] makes for
    the character, in the order of the input; on the empty string it makes
    none; the terminator is not transmitted. *)
Theorem LCD_SendString_transmissions {status_t} (INST : Z)
    (mem : list ascii) (p : nat) (s : list ascii) (fuel : nat)
    (w : world status_t) :
  c_string_at mem p s -> (List.length s < fuel)%nat ->
  exists w' evs,
    LCD_SendString INST fuel mem p w = Done (tt, w') /\
    w' = fold_left
           (fun w c => snd (LCD_SendData INST (uint8_of_char c) w)) s w /\
    trace w' = trace w ++ evs /\
    evs = map (data_event INST) s /\
    forallb is_send evs = true /\
    List.length evs = List.length s /\
    (s = [] -> evs = []) /\
    Forall (fun e => exists c, c <> NUL /\ e = data_event INST c) evs.
Proof.
  intros (pre & post & -> & <- & Hs) Hfuel.
  exists (mkWorld (trace w ++ map (data_event INST) s) (bus w)),
         (map (data_event INST) s).
  rewrite (LCD_SendString_run INST s Hs).
  apply Nat.ltb_lt in Hfuel. rewrite Hfuel.
  repeat split.
  - symmetry. apply fold_LCD_SendData.
  - rewrite forallb_forall. intros e He. apply in_map_iff in He.
    destruct He as (c & <- & _). reflexivity.
  - apply length_map.
  - intros ->. reflexivity.
  - apply Forall_map. apply Forall_impl with (2 := Hs).
    intros c Hc. exists c. split; [exact Hc | reflexivity].
Qed.

Lemma LCD_SendString_transmissions_witness :
  c_string_at ["H"; "i"; NUL; "!"]%char 0 ["H"; "i"]%char /\
  (2 < 3)%nat /\
  exists w' evs,
    LCD_SendString 7 3 ["H"; "i"; NUL; "!"]%char 0 world0 = Done (tt, w') /\
    trace w' = evs /\
    List.length evs = 2%nat.
Proof.
  assert (Hs : c_string_at ["H"; "i"; NUL; "!"]%char 0 ["H"; "i"]%char).
  { exists [], ["!"%char]. repeat split.
    repeat constructor; discriminate. }
  split; [exact Hs|]. split; [lia|].
  destruct (LCD_SendString_transmissions 7 _ _ _ 3%nat world0 Hs
              ltac:(simpl; lia))
    as (w' & evs & Hrun & _ & Htr & _ & _ & Hlen & _).
  exists w', evs. repeat split; assumption.
Defined.

(** C10. On a NUL-terminated string [LCD_SendString] returns: with [N]
    characters before the terminator the loop makes [N + 1] tests, one per
    character and the one that finds the terminator, so that every bound
    above [N] lets it finish, no bound up to [N] does, and it never reads
    outside the string. *)
Theorem LCD_SendString_terminates {status_t} (INST : Z)
    (mem : list ascii) (p : nat) (s : list ascii) (w : world status_t) :
  c_string_at mem p s ->
  (forall fuel, (List.length s < fuel)%nat ->
     exists w', LCD_SendString INST fuel mem p w = Done (tt, w')) /\
  (forall fuel, (fuel <= List.length s)%nat ->
     LCD_SendString INST fuel mem p w = OutOfFuel) /\
  (forall fuel, LCD_SendString INST fuel mem p w <> Fault).
Proof.
  intros (pre & post & -> & <- & Hs).
  split; [|split].
  - intros fuel Hfuel. rewrite (LCD_SendString_run INST s Hs).
    apply Nat.ltb_lt in Hfuel. rewrite Hfuel. eexists. reflexivity.
  - intros fuel Hfuel. rewrite (LCD_SendString_run INST s Hs).
    apply Nat.ltb_ge in Hfuel. rewrite Hfuel. reflexivity.
  - intros fuel. rewrite (LCD_SendString_run INST s Hs).
    destruct (List.length s <? fuel)%nat; discriminate.
Qed.

Lemma LCD_SendString_terminates_witness :
  c_string_at ["o"; "k"; NUL]%char 0 ["o"; "k"]%char /\
  (exists w', LCD_SendString 0 3 ["o"; "k"; NUL]%char 0 world0 = Done (tt, w')) /\
  LCD_SendString 0 2 ["o"; "k"; NUL]%char 0 world0 = OutOfFuel.
Proof.
  assert (Hs : c_string_at ["o"; "k"; NUL]%char 0 ["o"; "k"]%char).
  { exists [], []. repeat split. repeat constructor; discriminate. }
  split; [exact Hs|].
  destruct (LCD_SendString_terminates 0 _ _ _ world0 Hs) as (Hdone & Hout & _).
  split; [apply Hdone; simpl; lia | apply Hout; simpl; lia].
Defined.

(** ** The temperature line *)

Lemma temp_string_27_chars (rest : list ascii) :
  temp_string_27 rest =
  [] ++ ["2"; "7"; " "; "C"; " "]%char ++ NUL :: rest /\
  Forall (fun c => c <> NUL) ["2"; "7"; " "; "C"; " "]%char.
Proof.
  split; [reflexivity|]. repeat constructor; discriminate.
Qed.

(** C8, as the specification words it, fails: writing ["27 C "] never
    leaves six transmissions on the trace, whatever the bound on the
    loop. *)
Lemma temp_string_27_not_six_transmissions :
  ~ (exists fuel w',
       LCD_SendString 0 fuel (temp_string_27 []) 0 world0 = Done (tt, w') /\
       List.length (filter is_send (trace w')) = 6%nat).
Proof.
  intros (fuel & w' & Hrun & Hlen).
  destruct (temp_string_27_chars []) as [Hmem Hs].
  rewrite Hmem in Hrun.
  change 0%nat with (@List.length ascii []) in Hrun.
  rewrite (LCD_SendString_run 0 _ Hs) in Hrun.
  destruct (_ <? fuel)%nat; [|discriminate].
  inversion Hrun; subst w'. vm_compute in Hlen. discriminate.
Qed.

(** C8, amended. The string ["27 C "] passed to [LCD_SendString] makes
    exactly five data transmissions, for the characters '2', '7', ' ', 'C',
    ' ' in that order; nothing is transmitted for the terminator or for
    what lies after it. *)
Theorem temp_string_27_five_transmissions {status_t} (INST : Z)
    (rest : list ascii) (k : nat) (w : world status_t) :
  exists evs,
    LCD_SendString INST (6 + k) (temp_string_27 rest) 0 w =
      Done (tt, mkWorld (trace w ++ evs) (bus w)) /\
    evs = [ data_event INST "2"; data_event INST "7"; data_event INST " ";
            data_event INST "C"; data_event INST " " ] /\
    evs = [ data_event_of_byte INST 0x32; data_event_of_byte INST 0x37;
            data_event_of_byte INST 0x20; data_event_of_byte INST 0x43;
            data_event_of_byte INST 0x20 ] /\
    List.length evs = 5%nat.
Proof.
  destruct (temp_string_27_chars rest) as [Hmem Hs].
  eexists. split; [|repeat split].
  rewrite Hmem. change 0%nat with (@List.length ascii []) at 1.
  rewrite (LCD_SendString_run INST _ Hs). reflexivity.
Qed.

(** ** Initialisation *)

Lemma LCD_Init_eq {status_t} (INST : Z) (w : world status_t) :
  LCD_Init INST w =
  (tt, mkWorld (trace w ++ flat_map (step_events INST) LCD_Init_steps)
               (bus w)).
Proof.
  unfold LCD_Init, bind, LCD_SendCommand.
  repeat (first [rewrite OSIF_TimeDelay_eq | rewrite LCD_SendByte_eq];
          cbv iota beta; simpl trace; simpl bus).
  rewrite <- !app_assoc. reflexivity.
Qed.

(** C3, as the specification words it, fails: the trace of [LCD_Init]
    does not match the eight steps of section 4.4 exactly, whatever delays
    at or above the minimums are taken, since its synchronisation and
    switch steps are not raw half-byte transfers. *)
Lemma LCD_Init_not_exactly_spec_steps :
  ~ init_matches_spec (trace (snd (LCD_Init 0 world0))).
Proof.
  intros (steps & (d0 & d1 & d2 & d3 & d4 & d5 & -> & _) & Heq).
  rewrite LCD_Init_eq in Heq. vm_compute in Heq. discriminate.
Qed.

(** C3, amended. The trace [LCD_Init] leaves is that of the eight steps in
    their order, power-settle, three synchronisations, switch to 4-bit,
    function set, display control, clear, entry mode, home, with nothing
    between them, where the synchronisations and the switch are each a
    full call of the byte transmitter, [LCD_SendByte (0x30, 0)] and
    [LCD_SendByte (0x20, 0)], and not a raw half-byte transfer.  The first
    event is the delay of 50, before any transfer; the delays after the
    three synchronisations are 5, 1 and 1, after the switch 1 and after
    the clear 2, each at least the minimum of its step.  The nine
    transfers carry the bytes listed. *)
Theorem LCD_Init_sequence {status_t} (INST : Z) (w : world status_t) :
  exists steps,
    LCD_Init INST w =
      (tt, mkWorld (trace w ++ flat_map (step_events INST) steps) (bus w)) /\
    steps = LCD_Init_steps /\
    init_order steps /\
    (exists rest, flat_map (step_events INST) steps = EvDelay 50 :: rest) /\
    map observe (flat_map (step_events INST) steps) =
      [ ObsDelay 50;
        ObsTransfer [0x3C; 0x38; 0x0C; 0x08]; ObsDelay 5;
        ObsTransfer [0x3C; 0x38; 0x0C; 0x08]; ObsDelay 1;
        ObsTransfer [0x3C; 0x38; 0x0C; 0x08]; ObsDelay 1;
        ObsTransfer [0x2C; 0x28; 0x0C; 0x08]; ObsDelay 1;
        ObsTransfer [0x2C; 0x28; 0x8C; 0x88];
        ObsTransfer [0x0C; 0x08; 0xCC; 0xC8];
        ObsTransfer [0x0C; 0x08; 0x1C; 0x18]; ObsDelay 2;
        ObsTransfer [0x0C; 0x08; 0x6C; 0x68];
        ObsTransfer [0x0C; 0x08; 0x2C; 0x28] ] /\
    (forall (data : Z) (w' : world status_t),
        LCD_SendByte INST data 0 w' =
          (tt, mkWorld (trace w' ++ [send_event INST data 0]) (bus w'))) /\
    step_events INST (Force8BitSync 5) = [send_event INST 0x30 0; EvDelay 5] /\
    step_events INST (Force8BitSync 1) = [send_event INST 0x30 0; EvDelay 1] /\
    step_events INST (SwitchTo4Bit 1) = [send_event INST 0x20 0; EvDelay 1].
Proof.
  exists LCD_Init_steps. split; [apply LCD_Init_eq|].
  split; [reflexivity|]. split; [|split; [|split; [|split]]].
  - exists 50, 5, 1, 1, 1, 2. repeat split; lia.
  - eexists. reflexivity.
  - reflexivity.
  - intros data w'. apply LCD_SendByte_eq.
  - repeat split.
Qed.

(** C4, as the specification words it, fails: the synchronisation and
    switch steps of [LCD_Init] are not raw half-byte transfers. *)
Lemma LCD_Init_sync_not_raw_nibbles :
  ~ sync_by_raw_nibbles (trace (snd (LCD_Init 0 world0))).
Proof.
  unfold sync_by_raw_nibbles. rewrite LCD_Init_eq.
  vm_compute. discriminate.
Qed.

(** C4, amended. Each of the three synchronisation steps of [LCD_Init] is
    a full call [LCD_SendByte (0x30, 0)], one transfer of the four bytes
    [0x3C, 0x38, 0x0C, 0x08]: the nibble 0x3 in the first group and the
    nibble 0x0 in the second.  The switch to 4-bit is likewise a full call
    [LCD_SendByte (0x20, 0)] with the bytes [0x2C, 0x28, 0x0C, 0x08]. *)
Theorem LCD_Init_sync_full_bytes {status_t} (INST : Z) (w : world status_t) :
  exists sync switch rest,
    LCD_Init INST w =
      (tt, mkWorld (trace w ++
                    [ EvDelay 50; sync; EvDelay 5; sync; EvDelay 1;
                      sync; EvDelay 1; switch; EvDelay 1 ] ++ rest)
                   (bus w)) /\
    (forall w' : world status_t,
        LCD_SendByte INST 0x30 0 w' =
          (tt, mkWorld (trace w' ++ [sync]) (bus w'))) /\
    (forall w' : world status_t,
        LCD_SendByte INST 0x20 0 w' =
          (tt, mkWorld (trace w' ++ [switch]) (bus w'))) /\
    payload_of sync = [0x3C; 0x38; 0x0C; 0x08] /\
    payload_of switch = [0x2C; 0x28; 0x0C; 0x08] /\
    payload_of sync = raw_nibble_payload 0x3 ++ raw_nibble_payload 0x0 /\
    payload_of switch = raw_nibble_payload 0x2 ++ raw_nibble_payload 0x0.
Proof.
  exists (send_event INST 0x30 0), (send_event INST 0x20 0).
  eexists. split; [rewrite LCD_Init_eq; reflexivity|].
  repeat split.
Qed.

(** ** One transfer for each byte *)

(** C5. For every byte and mode flag [LCD_SendByte] makes one call of the
    blocking transfer and no other: the call is given the whole array of
    four bytes with the length 4, and the timeout 100 whatever the byte,
    the flag and the state of the world. *)
Theorem LCD_SendByte_single_transfer {status_t} (INST : Z) (data rs : Z)
    (w : world status_t) :
  exists buf,
    LCD_SendByte INST data rs w =
      (tt, mkWorld (trace w ++ [EvSend INST buf 4 true 100]) (bus w)) /\
    buf = i2c_payload data rs /\
    Z.of_nat (List.length buf) = 4 /\
    List.length (trace (snd (LCD_SendByte INST data rs w))) =
      S (List.length (trace w)).
Proof.
  exists (i2c_payload data rs). repeat split.
  rewrite LCD_SendByte_eq. simpl. rewrite length_app. simpl. lia.
Qed.

(** C6. [LCD_SendByte] returns the one value of [unit]; the status the
    transfer answers reaches [LCD_SendByte] and goes no further: with two
    buses that answer anything at all, the result and the trace of
    [LCD_SendByte] are the same, and so is the trace of [LCD_Init] above
    it. *)
Theorem LCD_SendByte_status_discarded {status_t} (INST : Z) (data rs : Z)
    (tr : list event) (bus1 bus2 : nat -> status_t) :
  fst (LPI2C_DRV_MasterSendDataBlocking
         INST (i2c_payload data rs) 4 true 100 (mkWorld tr bus1)) =
    bus1 (List.length tr) /\
  LCD_SendByte INST data rs (mkWorld tr bus1) =
    (tt, mkWorld (tr ++ [send_event INST data rs]) bus1) /\
  LCD_SendByte INST data rs (mkWorld tr bus2) =
    (tt, mkWorld (tr ++ [send_event INST data rs]) bus2) /\
  fst (LCD_SendByte INST data rs (mkWorld tr bus1)) =
    fst (LCD_SendByte INST data rs (mkWorld tr bus2)) /\
  trace (snd (LCD_SendByte INST data rs (mkWorld tr bus1))) =
    trace (snd (LCD_SendByte INST data rs (mkWorld tr bus2))) /\
  trace (snd (LCD_Init INST (mkWorld tr bus1))) =
    trace (snd (LCD_Init INST (mkWorld tr bus2))).
Proof.
  repeat split.
Qed.

(** ** Command and data bursts *)

Lemma differ_in_rs_onlyb_true (c d : Z) :
  differ_in_rs_onlyb c d = true -> differ_in_rs_only c d.
Proof.
  unfold differ_in_rs_onlyb, differ_in_rs_only.
  rewrite andb_true_iff, !Z.eqb_eq. tauto.
Qed.

Lemma Forall2_differ_in_rs_only (l1 l2 : list Z) :
  all_differ_in_rs_onlyb l1 l2 = true ->
  Forall2 differ_in_rs_only l1 l2.
Proof.
  revert l2. induction l1 as [| c l1 IH]; intros [| d l2] H;
    try discriminate; constructor.
  - apply andb_true_iff in H. apply differ_in_rs_onlyb_true, H.
  - apply andb_true_iff in H. apply IH, H.
Qed.

(** C7. For every byte the four bytes sent for it as a command and the
    four sent for it as data differ, position by position, in the
    register-select bit and in nothing else: the upper nibbles are the
    same. *)
Theorem command_data_differ_in_rs_only {status_t} (INST : Z) (byte : Z)
    (w : world status_t) :
  0 <= byte < 256 ->
  exists ec ed,
    LCD_SendCommand INST byte w = (tt, mkWorld (trace w ++ [ec]) (bus w)) /\
    LCD_SendData INST byte w = (tt, mkWorld (trace w ++ [ed]) (bus w)) /\
    List.length (payload_of ec) = 4%nat /\
    List.length (payload_of ed) = 4%nat /\
    Forall2 differ_in_rs_only (payload_of ec) (payload_of ed).
Proof.
  intros Hb.
  exists (send_event INST byte 0), (send_event INST byte 1).
  repeat split. simpl payload_of.
  apply Forall2_differ_in_rs_only.
  apply (forall_byte
           (fun b =>
              all_differ_in_rs_onlyb (i2c_payload b 0) (i2c_payload b 1)));
    [vm_compute; reflexivity | exact Hb].
Qed.

Lemma command_data_differ_in_rs_only_witness :
  0 <= 0x41 < 256 /\
  exists ec ed,
    LCD_SendCommand 0 0x41 world0 = (tt, mkWorld [ec] (fun _ => tt)) /\
    LCD_SendData 0 0x41 world0 = (tt, mkWorld [ed] (fun _ => tt)) /\
    Forall2 differ_in_rs_only (payload_of ec) (payload_of ed).
Proof.
  split; [lia|].
  destruct (command_data_differ_in_rs_only 0 0x41 world0 ltac:(lia))
    as (ec & ed & Hc & Hd & _ & _ & H).
  exists ec, ed. repeat split; assumption.
Defined.

(** ** Control bits *)

Lemma land_rs_low (rs : Z) : rs = 0 \/ rs = 1 -> Z.land rs 0x0F = rs.
Proof. intros [-> | ->]; reflexivity. Qed.

Lemma land_rs_rw (rs : Z) : rs = 0 \/ rs = 1 -> Z.land rs 0x02 = 0.
Proof. intros [-> | ->]; reflexivity. Qed.

(** The control bits of a byte [x | rs | ctl] whose [x] lies on the upper
    four bits. *)
Lemma control_bits (x rs ctl m : Z) :
  Z.land 0xF0 m = 0 ->
  Z.land (Z.lor (Z.lor (Z.land x 0xF0) rs) ctl) m =
  Z.lor (Z.land rs m) (Z.land ctl m).
Proof.
  intros Hm. rewrite !Z.land_lor_distr_l, <- Z.land_assoc, Hm.
  rewrite Z.land_0_r, Z.lor_0_l. reflexivity.
Qed.

(** C9. In each of the four bytes [LCD_SendByte] sends, for every byte and
    both mode flags, bit 0x02 (the controller's R/W line) is clear, and
    the lower four bits are [rs | 0x08 | 0x04] in the first and third byte
    and [rs | 0x08] in the second and fourth. *)
Theorem LCD_SendByte_control_bits {status_t} (INST : Z) (data rs : Z)
    (w : world status_t) :
  0 <= data < 256 -> rs = 0 \/ rs = 1 ->
  exists e,
    LCD_SendByte INST data rs w = (tt, mkWorld (trace w ++ [e]) (bus w)) /\
    Forall (fun b => Z.land b 0x02 = 0 /\ Z.testbit b 1 = false)
           (payload_of e) /\
    map (fun b => Z.land b 0x0F) (payload_of e) =
      [ Z.lor (Z.lor rs 0x08) 0x04; Z.lor rs 0x08;
        Z.lor (Z.lor rs 0x08) 0x04; Z.lor rs 0x08 ].
Proof.
  intros Hd Hrs. exists (send_event INST data rs).
  split; [apply LCD_SendByte_eq|]. simpl payload_of.
  rewrite (i2c_payload_burst data rs Hd Hrs). unfold burst_spec.
  assert (Hrw : forall x ctl, Z.land ctl 0x02 = 0 ->
            Z.land (Z.lor (Z.lor (Z.land x 0xF0) rs) ctl) 0x02 = 0).
  { intros x ctl Hctl. rewrite control_bits by reflexivity.
    rewrite (land_rs_rw rs Hrs), Hctl. reflexivity. }
  assert (Hbit : forall b, Z.land b 0x02 = 0 -> Z.testbit b 1 = false).
  { intros b Hb.
    assert (Ht : Z.testbit (Z.land b 0x02) 1 = false)
      by (rewrite Hb; reflexivity).
    rewrite Z.land_spec in Ht. change (Z.testbit 0x02 1) with true in Ht.
    rewrite andb_true_r in Ht. exact Ht. }
  split.
  - repeat constructor; try (apply Hbit); apply Hrw; reflexivity.
  - simpl map. rewrite !control_bits by reflexivity.
    rewrite (land_rs_low rs Hrs).
    destruct Hrs as [-> | ->]; reflexivity.
Qed.

Lemma LCD_SendByte_control_bits_witness :
  0 <= 0xFF < 256 /\ (1 = 0 \/ 1 = 1) /\
  exists e,
    LCD_SendByte 0 0xFF 1 world0 = (tt, mkWorld [e] (fun _ => tt)) /\
    map (fun b => Z.land b 0x0F) (payload_of e) = [0x0D; 0x09; 0x0D; 0x09].
Proof.
  split; [lia|]. split; [right; reflexivity|].
  destruct (LCD_SendByte_control_bits 0 0xFF 1 world0
              ltac:(lia) (or_intror eq_refl)) as (e & He & _ & Hm).
  exists e. split; [exact He | exact Hm].
Defined.

(** * Further properties of the driver *)

(** ** The burst read back *)

Lemma decode_okb_true (data rs : Z) :
  decode_okb data rs = true ->
  decode_burst (i2c_payload data rs) = Some (data, rs).
Proof.
  unfold decode_okb. destruct (decode_burst _) as [[d r] |]; [|discriminate].
  rewrite andb_true_iff, !Z.eqb_eq. intros [-> ->]. reflexivity.
Qed.

Lemma decode_i2c_payload (data rs : Z) :
  0 <= data < 256 -> rs = 0 \/ rs = 1 ->
  decode_burst (i2c_payload data rs) = Some (data, rs).
Proof.
  intros Hd Hrs. apply decode_okb_true.
  destruct Hrs as [-> | ->];
    [ apply (forall_byte (fun d => decode_okb d 0))
    | apply (forall_byte (fun d => decode_okb d 1)) ];
    try assumption; vm_compute; reflexivity.
Qed.

(** X1. The four bytes [LCD_SendByte] sends carry the byte and the mode
    flag back: the upper nibbles latched at the two strobes, put together,
    are the byte, and bit 0 is the flag.  So two calls that send the same
    four bytes were given the same byte and the same flag. *)
Theorem LCD_SendByte_decodes {status_t} (INST : Z) (data rs : Z)
    (w : world status_t) :
  0 <= data < 256 -> rs = 0 \/ rs = 1 ->
  (exists e,
     LCD_SendByte INST data rs w = (tt, mkWorld (trace w ++ [e]) (bus w)) /\
     decode_burst (payload_of e) = Some (data, rs)) /\
  (forall data' rs',
     0 <= data' < 256 -> rs' = 0 \/ rs' = 1 ->
     trace (snd (LCD_SendByte INST data' rs' w)) =
       trace (snd (LCD_SendByte INST data rs w)) ->
     data' = data /\ rs' = rs).
Proof.
  intros Hd Hrs. split.
  - exists (send_event INST data rs). split; [apply LCD_SendByte_eq|].
    apply decode_i2c_payload; assumption.
  - intros data' rs' Hd' Hrs' Heq. rewrite !LCD_SendByte_eq in Heq.
    simpl trace in Heq. apply app_inv_head in Heq.
    assert (Hp : payload_of (send_event INST data' rs') =
                 payload_of (send_event INST data rs)) by congruence.
    change (i2c_payload data' rs' = i2c_payload data rs) in Hp.
    pose proof (decode_i2c_payload data rs Hd Hrs) as Hdec.
    pose proof (decode_i2c_payload data' rs' Hd' Hrs') as Hdec'.
    rewrite Hp, Hdec in Hdec'. split; congruence.
Qed.

Lemma LCD_SendByte_decodes_witness :
  0 <= 0x5A < 256 /\ (1 = 0 \/ 1 = 1) /\
  exists e,
    LCD_SendByte 0 0x5A 1 world0 = (tt, mkWorld [e] (fun _ => tt)) /\
    decode_burst (payload_of e) = Some (0x5A, 1).
Proof.
  split; [lia|]. split; [right; reflexivity|].
  destruct (LCD_SendByte_decodes 0 0x5A 1 world0
              ltac:(lia) (or_intror eq_refl)) as [(e & He & Hdec) _].
  exists e. split; [exact He | exact Hdec].
Defined.

(** ** The strobes *)

Lemma strobeb_true (a b : Z) : strobeb a b = true -> strobe a b.
Proof.
  unfold strobeb, strobe. rewrite !andb_true_iff, negb_true_iff, Z.eqb_eq.
  tauto.
Qed.

(** X2. In the four bytes of [LCD_SendByte] each nibble is strobed once:
    the first byte of its pair has the enable bit set, the second has it
    clear, and the two bytes are the same in every other bit, so the
    nibble, the register select and the backlight are held while the
    enable line falls. *)
Theorem LCD_SendByte_strobes {status_t} (INST : Z) (data rs : Z)
    (w : world status_t) :
  0 <= data < 256 -> rs = 0 \/ rs = 1 ->
  exists p0 p1 p2 p3,
    trace (snd (LCD_SendByte INST data rs w)) =
      trace w ++ [EvSend INST [p0; p1; p2; p3] 4 true 100] /\
    strobe p0 p1 /\ strobe p2 p3.
Proof.
  intros Hd Hrs.
  assert (Hok : strobes_okb data rs = true).
  { destruct Hrs as [-> | ->];
      [ apply (forall_byte (fun d => strobes_okb d 0))
      | apply (forall_byte (fun d => strobes_okb d 1)) ];
      try assumption; vm_compute; reflexivity. }
  rewrite LCD_SendByte_eq. unfold send_event. simpl trace.
  unfold strobes_okb in Hok.
  destruct (i2c_payload data rs) as [| p0 [| p1 [| p2 [| p3 [| ? ?]]]]];
    try discriminate.
  apply andb_true_iff in Hok. destruct Hok as [H01 H23].
  exists p0, p1, p2, p3. split; [reflexivity|].
  split; apply strobeb_true; assumption.
Qed.

Lemma LCD_SendByte_strobes_witness :
  0 <= 0x41 < 256 /\ (0 = 0 \/ 0 = 1) /\
  exists p0 p1 p2 p3,
    trace (snd (LCD_SendByte 0 0x41 0 world0)) =
      [EvSend 0 [p0; p1; p2; p3] 4 true 100] /\
    strobe p0 p1 /\ strobe p2 p3.
Proof.
  split; [lia|]. split; [left; reflexivity|].
  exact (LCD_SendByte_strobes 0 0x41 0 world0 ltac:(lia) (or_introl eq_refl)).
Defined.

(** ** A mode flag that is not 0 or 1 *)

(** X3. [LCD_SendByte] does not mask [rs_bit]: for every byte and every
    8-bit [rs_bit], each of the four bytes sent is the byte sent for
    [rs_bit = 0] with [rs_bit] or-ed in whole, and still fits in 8 bits. *)
Theorem LCD_SendByte_rs_bit_unmasked {status_t} (INST : Z) (data rs_bit : Z)
    (w : world status_t) :
  0 <= data < 256 -> 0 <= rs_bit < 256 ->
  exists e e0,
    LCD_SendByte INST data rs_bit w =
      (tt, mkWorld (trace w ++ [e]) (bus w)) /\
    LCD_SendByte INST data 0 w = (tt, mkWorld (trace w ++ [e0]) (bus w)) /\
    payload_of e = map (fun b => Z.lor b rs_bit) (payload_of e0) /\
    Forall (fun b => 0 <= b < 256) (payload_of e).
Proof.
  intros Hd Hrs.
  assert (Hok : or_rs_okb rs_bit data = true).
  { apply (forall_byte (or_rs_okb rs_bit)); [|exact Hd].
    apply (forall_byte (fun r => forallb (or_rs_okb r) all_bytes));
      [vm_compute; reflexivity | exact Hrs]. }
  unfold or_rs_okb in Hok. apply andb_true_iff in Hok.
  destruct Hok as [Heq Hrng].
  exists (send_event INST data rs_bit), (send_event INST data 0).
  repeat split.
  - apply list_Z_eqb_eq, Heq.
  - simpl payload_of. rewrite forallb_forall in Hrng.
    apply Forall_forall. intros b Hb. specialize (Hrng b Hb).
    apply andb_true_iff in Hrng. lia.
Qed.

Lemma LCD_SendByte_rs_bit_unmasked_witness :
  0 <= 0x00 < 256 /\ 0 <= 0x10 < 256 /\
  exists e e0,
    LCD_SendByte 0 0x00 0x10 world0 = (tt, mkWorld [e] (fun _ => tt)) /\
    LCD_SendByte 0 0x00 0 world0 = (tt, mkWorld [e0] (fun _ => tt)) /\
    payload_of e = map (fun b => Z.lor b 0x10) (payload_of e0).
Proof.
  split; [lia|]. split; [lia|].
  destruct (LCD_SendByte_rs_bit_unmasked 0 0x00 0x10 world0
              ltac:(lia) ltac:(lia)) as (e & e0 & He & He0 & Hp & _).
  exists e, e0. repeat split; assumption.
Defined.

(** ** Strings without a terminator *)

Lemma LCD_SendString_no_NUL {status_t} (INST : Z) (s : list ascii) :
  Forall (fun c => c <> NUL) s ->
  forall (fuel : nat) (pre : list ascii) (w : world status_t),
    LCD_SendString INST fuel (pre ++ s) (List.length pre) w =
    if (List.length s <? fuel)%nat then Fault else OutOfFuel.
Proof.
  induction 1 as [| c s Hc Hs IH]; intros fuel pre w.
  - destruct fuel as [| fuel]; [reflexivity|].
    simpl LCD_SendString. rewrite app_nil_r.
    rewrite (proj2 (nth_error_None pre (List.length pre))) by lia.
    reflexivity.
  - destruct fuel as [| fuel]; [reflexivity|].
    simpl LCD_SendString.
    rewrite nth_error_middle, (NUL_eqb_false c Hc).
    replace (pre ++ c :: s) with ((pre ++ [c]) ++ s)
      by (rewrite <- app_assoc; reflexivity).
    replace (S (List.length pre)) with (List.length (pre ++ [c]))
      by (rewrite length_app; simpl; lia).
    rewrite IH. reflexivity.
Qed.

(** X4. When the memory holds no NUL from the character [str] points at to
    its end, [LCD_SendString] does not return: it walks over every
    character and then reads past the end of the memory. *)
Theorem LCD_SendString_unterminated {status_t} (INST : Z)
    (pre s : list ascii) (w : world status_t) :
  Forall (fun c => c <> NUL) s ->
  (forall fuel, (List.length s < fuel)%nat ->
     LCD_SendString INST fuel (pre ++ s) (List.length pre) w = Fault) /\
  (forall fuel, (fuel <= List.length s)%nat ->
     LCD_SendString INST fuel (pre ++ s) (List.length pre) w = OutOfFuel) /\
  (forall fuel r,
     LCD_SendString INST fuel (pre ++ s) (List.length pre) w <> Done r).
Proof.
  intros Hs. split; [|split].
  - intros fuel Hfuel. rewrite (LCD_SendString_no_NUL INST s Hs).
    apply Nat.ltb_lt in Hfuel. rewrite Hfuel. reflexivity.
  - intros fuel Hfuel. rewrite (LCD_SendString_no_NUL INST s Hs).
    apply Nat.ltb_ge in Hfuel. rewrite Hfuel. reflexivity.
  - intros fuel r. rewrite (LCD_SendString_no_NUL INST s Hs).
    destruct (List.length s <? fuel)%nat; discriminate.
Qed.

Lemma LCD_SendString_unterminated_witness :
  Forall (fun c => c <> NUL) ["o"; "k"]%char /\
  LCD_SendString 0 3 ["o"; "k"]%char 0 world0 = Fault.
Proof.
  assert (Hs : Forall (fun c => c <> NUL) ["o"; "k"]%char)
    by (repeat constructor; discriminate).
  split; [exact Hs|].
  destruct (LCD_SendString_unterminated 0 [] _ world0 Hs) as (Hfault & _).
  apply Hfault. simpl. lia.
Defined.

(** ** Strings in pieces *)

Lemma LCD_SendString_at {status_t} (INST : Z) (mem : list ascii) (p : nat)
    (s : list ascii) (fuel : nat) (w : world status_t) :
  c_string_at mem p s -> (List.length s < fuel)%nat ->
  LCD_SendString INST fuel mem p w =
  Done (tt, mkWorld (trace w ++ map (data_event INST) s) (bus w)).
Proof.
  intros (pre & post & -> & <- & Hs) Hfuel.
  rewrite (LCD_SendString_run INST s Hs).
  apply Nat.ltb_lt in Hfuel. rewrite Hfuel. reflexivity.
Qed.

(** X5. Writing a string in two calls, its first part and then the rest,
    leaves the world that writing it whole in one call leaves, wherever
    the three strings lie in memory. *)
Theorem LCD_SendString_app {status_t} (INST : Z)
    (mem1 mem2 mem : list ascii) (p1 p2 p : nat) (s1 s2 : list ascii)
    (f1 f2 f : nat) (w : world status_t) :
  c_string_at mem1 p1 s1 -> c_string_at mem2 p2 s2 ->
  c_string_at mem p (s1 ++ s2) ->
  (List.length s1 < f1)%nat -> (List.length s2 < f2)%nat ->
  (List.length s1 + List.length s2 < f)%nat ->
  exists w1 w2,
    LCD_SendString INST f1 mem1 p1 w = Done (tt, w1) /\
    LCD_SendString INST f2 mem2 p2 w1 = Done (tt, w2) /\
    LCD_SendString INST f mem p w = Done (tt, w2).
Proof.
  intros H1 H2 H12 Hf1 Hf2 Hf.
  eexists. eexists. split; [|split].
  - apply LCD_SendString_at; eassumption.
  - apply LCD_SendString_at; eassumption.
  - rewrite (LCD_SendString_at INST mem p (s1 ++ s2) f w H12)
      by (rewrite length_app; exact Hf).
    simpl trace. simpl bus. rewrite map_app, app_assoc. reflexivity.
Qed.

Lemma LCD_SendString_app_witness :
  exists w1 w2,
    LCD_SendString 0 2 ["2"; NUL]%char 0 world0 = Done (tt, w1) /\
    LCD_SendString 0 2 ["x"; "7"; NUL]%char 1 w1 = Done (tt, w2) /\
    LCD_SendString 0 3 ["2"; "7"; NUL]%char 0 world0 = Done (tt, w2).
Proof.
  apply (LCD_SendString_app 0 ["2"; NUL]%char ["x"; "7"; NUL]%char
           ["2"; "7"; NUL]%char 0 1 0 ["2"]%char ["7"]%char).
  - exists [], []. repeat split. repeat constructor; discriminate.
  - exists ["x"]%char, []. repeat split. repeat constructor; discriminate.
  - exists [], []. repeat split. repeat constructor; discriminate.
  - simpl. lia.
  - simpl. lia.
  - simpl. lia.
Defined.

(** ** Strings read back *)

Lemma transfers_app (tr1 tr2 : list event) :
  transfers (tr1 ++ tr2) = transfers tr1 ++ transfers tr2.
Proof. unfold transfers. rewrite filter_app, map_app. reflexivity. Qed.

Lemma uint8_of_char_range (c : ascii) : 0 <= uint8_of_char c < 256.
Proof. unfold uint8_of_char. pose proof (N_ascii_bounded c). lia. Qed.

Lemma decode_data_events (INST : Z) (s : list ascii) :
  decode_trace (map (data_event INST) s) =
  map (fun c => Some (uint8_of_char c, 1)) s.
Proof.
  unfold decode_trace, transfers. induction s as [| c s IH]; [reflexivity|].
  cbn [map filter is_send data_event send_event payload_of].
  cbn [map filter is_send data_event send_event payload_of] in IH.
  rewrite IH. f_equal.
  apply decode_i2c_payload; [apply uint8_of_char_range | right; reflexivity].
Qed.

(** X6. After [LCD_SendString] on a NUL-terminated string, what the
    controller reads from the new transfers is the string itself: one
    byte per character, the character's own value, in order, each written
    to the data register. *)
Theorem LCD_SendString_decodes {status_t} (INST : Z)
    (mem : list ascii) (p : nat) (s : list ascii) (fuel : nat)
    (w : world status_t) :
  c_string_at mem p s -> (List.length s < fuel)%nat ->
  exists w',
    LCD_SendString INST fuel mem p w = Done (tt, w') /\
    decode_trace (trace w') =
      decode_trace (trace w) ++ map (fun c => Some (uint8_of_char c, 1)) s.
Proof.
  intros Hs Hfuel. eexists. split.
  - apply LCD_SendString_at; eassumption.
  - simpl trace. unfold decode_trace at 1. rewrite transfers_app, map_app.
    f_equal. apply decode_data_events.
Qed.

Lemma LCD_SendString_decodes_witness :
  exists w',
    LCD_SendString 0 3 ["H"; "i"; NUL]%char 0 world0 = Done (tt, w') /\
    decode_trace (trace w') = [Some (0x48, 1); Some (0x69, 1)].
Proof.
  apply (LCD_SendString_decodes 0 ["H"; "i"; NUL]%char 0 ["H"; "i"]%char
           3 world0).
  - exists [], []. repeat split. repeat constructor; discriminate.
  - simpl. lia.
Defined.

(** ** The discipline of the bus *)

Lemma send_event_ok (INST : Z) (data rs : Z) :
  0 <= data < 256 -> rs = 0 \/ rs = 1 ->
  transfer_okb INST (send_event INST data rs) = true.
Proof.
  intros Hd Hrs. unfold transfer_okb, send_event.
  rewrite Z.eqb_refl. simpl andb.
  destruct Hrs as [-> | ->];
    [ apply (forall_byte (fun d => forallb payload_byte_okb (i2c_payload d 0)))
    | apply (forall_byte (fun d => forallb payload_byte_okb (i2c_payload d 1))) ];
    try assumption; vm_compute; reflexivity.
Qed.

Lemma bus_discipline_app (INST : Z) (tr1 tr2 : list event) :
  bus_discipline INST tr1 -> bus_discipline INST tr2 ->
  bus_discipline INST (tr1 ++ tr2).
Proof.
  unfold bus_discipline. intros H1 H2. rewrite forallb_app, H1, H2.
  reflexivity.
Qed.

Lemma bus_discipline_send (INST : Z) (tr : list event) (data rs : Z) :
  bus_discipline INST tr -> 0 <= data < 256 -> rs = 0 \/ rs = 1 ->
  bus_discipline INST (tr ++ [send_event INST data rs]).
Proof.
  intros Htr Hd Hrs. apply bus_discipline_app; [exact Htr|].
  unfold bus_discipline. cbn [forallb].
  rewrite (send_event_ok INST data rs Hd Hrs). reflexivity.
Qed.

Lemma bus_discipline_LCD_SendString {status_t} (INST : Z)
    (mem : list ascii) (fuel : nat) :
  forall (p : nat) (w w' : world status_t),
    bus_discipline INST (trace w) ->
    LCD_SendString INST fuel mem p w = Done (tt, w') ->
    bus_discipline INST (trace w').
Proof.
  induction fuel as [| fuel IH]; intros p w w' Hw Hrun; [discriminate|].
  simpl in Hrun. destruct (nth_error mem p) as [c |]; [|discriminate].
  destruct (Ascii.eqb c NUL).
  - injection Hrun as <-. exact Hw.
  - apply IH in Hrun; [exact Hrun|]. simpl trace.
    apply (bus_discipline_send INST (trace w) (uint8_of_char c) 1 Hw);
      [apply uint8_of_char_range | right; reflexivity].
Qed.

(** X7. The driver keeps the bus in one shape.  If every transfer made so
    far went to the instance [INST_LPI2C0] as four bytes announced as
    four, with a stop condition and the timeout 100, each byte in 8 bits
    with the backlight bit set and the read/write bit clear, then the same
    holds after [LCD_SendCommand] and [LCD_SendData] on any byte, after
    [LCD_Init], and after any call of [LCD_SendString] that returns. *)
Theorem driver_keeps_bus_discipline {status_t} (INST : Z)
    (w : world status_t) :
  bus_discipline INST (trace w) ->
  (forall b, 0 <= b < 256 ->
     bus_discipline INST (trace (snd (LCD_SendCommand INST b w))) /\
     bus_discipline INST (trace (snd (LCD_SendData INST b w)))) /\
  bus_discipline INST (trace (snd (LCD_Init INST w))) /\
  (forall fuel mem p w',
     LCD_SendString INST fuel mem p w = Done (tt, w') ->
     bus_discipline INST (trace w')).
Proof.
  intros Hw. split; [|split].
  - intros b Hb. unfold LCD_SendCommand, LCD_SendData.
    rewrite !LCD_SendByte_eq. simpl trace.
    split; apply bus_discipline_send; auto.
  - rewrite LCD_Init_eq. simpl trace.
    apply bus_discipline_app; [exact Hw|].
    unfold bus_discipline, LCD_Init_steps.
    cbn [flat_map step_events app forallb].
    rewrite !send_event_ok by (try lia; left; reflexivity).
    reflexivity.
  - intros fuel mem p w' Hrun.
    exact (bus_discipline_LCD_SendString INST mem fuel p w w' Hw Hrun).
Qed.

Lemma driver_keeps_bus_discipline_witness :
  bus_discipline 0 (trace world0) /\
  bus_discipline 0 (trace (snd (LCD_Init 0 world0))).
Proof.
  assert (H0 : bus_discipline 0 (trace world0)) by reflexivity.
  split; [exact H0|].
  destruct (driver_keeps_bus_discipline 0 world0 H0) as (_ & Hinit & _).
  exact Hinit.
Defined.

(** ** Formatting the temperature *)

Lemma digit_char_code (d : Z) :
  0 <= d < 10 -> uint8_of_char (digit_char d) = 48 + d.
Proof.
  intros Hd. unfold uint8_of_char, digit_char.
  rewrite N_ascii_embedding by lia. lia.
Qed.

Lemma digit_char_not_NUL (d : Z) : 0 <= d < 10 -> digit_char d <> NUL.
Proof.
  intros Hd Heq. pose proof (digit_char_code d Hd) as Hc.
  rewrite Heq in Hc. change (uint8_of_char NUL) with 0 in Hc. lia.
Qed.

Lemma decimal_length (width : nat) (n : Z) :
  (List.length (decimal width n) <= width)%nat.
Proof.
  revert n. induction width as [| width IH]; intros n; [simpl; lia|].
  simpl decimal. rewrite length_app. simpl List.length.
  destruct (n <? 10); [simpl; lia|]. specialize (IH (n / 10)). lia.
Qed.

Lemma decimal_length_pos (width : nat) (n : Z) :
  (1 <= List.length (decimal (S width) n))%nat.
Proof.
  cbn [decimal]. rewrite length_app. simpl List.length. lia.
Qed.

Lemma decimal_no_NUL (width : nat) (n : Z) :
  0 <= n -> Forall (fun c => c <> NUL) (decimal width n).
Proof.
  revert n. induction width as [| width IH]; intros n Hn; [constructor|].
  simpl decimal. apply Forall_app. split.
  - destruct (n <? 10); [constructor|]. apply IH. apply Z.div_pos; lia.
  - constructor; [|constructor]. apply digit_char_not_NUL.
    apply Z.mod_pos_bound. lia.
Qed.

Lemma read_decimal_snoc (s : list ascii) (c : ascii) :
  read_decimal (s ++ [c]) = 10 * read_decimal s + (uint8_of_char c - 48).
Proof. unfold read_decimal. rewrite fold_left_app. reflexivity. Qed.

(** The digits printed stand for the number, when the width is enough. *)
Lemma read_decimal_decimal (width : nat) (n : Z) :
  0 <= n < 10 ^ Z.of_nat width -> read_decimal (decimal width n) = n.
Proof.
  revert n. induction width as [| width IH]; intros n Hn.
  - simpl in Hn. assert (n = 0) by lia. subst n. reflexivity.
  - simpl decimal. rewrite read_decimal_snoc.
    rewrite digit_char_code by (apply Z.mod_pos_bound; lia).
    destruct (Z.ltb_spec n 10) as [Hlt | Hge].
    + simpl app. change (read_decimal []) with 0.
      rewrite Z.mod_small by lia. lia.
    + rewrite IH.
      * pose proof (Z.div_mod n 10 ltac:(lia)). lia.
      * rewrite Nat2Z.inj_succ, Z.pow_succ_r in Hn by lia.
        split; [apply Z.div_pos; lia|].
        apply Z.div_lt_upper_bound; lia.
Qed.

Lemma sprintf_d_C_length (t : Z) :
  (3 < List.length (sprintf_d_C t) <= 14)%nat.
Proof.
  unfold sprintf_d_C. rewrite !length_app.
  pose proof (decimal_length 10 (Z.abs t)) as Hlen.
  pose proof (decimal_length_pos 9 (Z.abs t)) as Hpos.
  destruct (t <? 0); simpl List.length in *; lia.
Qed.

Lemma sprintf_d_C_no_NUL (t : Z) :
  Forall (fun c => c <> NUL) (sprintf_d_C t).
Proof.
  unfold sprintf_d_C. apply Forall_app. split.
  - destruct (t <? 0); repeat constructor; discriminate.
  - apply Forall_app. split.
    + apply decimal_no_NUL. lia.
    + repeat constructor; discriminate.
Qed.

Lemma sprintf_store_c_string (buf s : list ascii) :
  (List.length s < List.length buf)%nat ->
  Forall (fun c => c <> NUL) s ->
  exists buf',
    sprintf_store buf s = Some buf' /\
    c_string_at buf' 0 s /\
    List.length buf' = List.length buf.
Proof.
  intros Hlen Hs. unfold sprintf_store.
  apply Nat.ltb_lt in Hlen. rewrite Hlen. apply Nat.ltb_lt in Hlen.
  eexists. split; [reflexivity|]. split.
  - exists [], (skipn (S (List.length s)) buf). repeat split. exact Hs.
  - rewrite length_app. cbn [List.length]. rewrite length_skipn. lia.
Qed.

(** X8. For every value of an [int], the text [sprintf] makes of
    ["%d C "] has between 4 and 14 characters and no NUL among them, its
    digits read back as the magnitude of the value, and text and
    terminator fit the 16 characters of [temp_string], which then holds a
    NUL-terminated string from its start. *)
Theorem sprintf_fits_temp_string (t : Z) (temp_string : list ascii) :
  is_int t -> List.length temp_string = 16%nat ->
  (3 < List.length (sprintf_d_C t) <= 14)%nat /\
  read_decimal (decimal 10 (Z.abs t)) = Z.abs t /\
  exists temp_string',
    sprintf_store temp_string (sprintf_d_C t) = Some temp_string' /\
    c_string_at temp_string' 0 (sprintf_d_C t) /\
    List.length temp_string' = 16%nat.
Proof.
  intros Ht Hbuf. pose proof (sprintf_d_C_length t) as Hlen.
  split; [exact Hlen|]. split.
  - apply read_decimal_decimal. unfold is_int in Ht.
    change (10 ^ Z.of_nat 10) with 10000000000.
    change (2 ^ 31) with 2147483648 in Ht. lia.
  - destruct (sprintf_store_c_string temp_string (sprintf_d_C t))
      as (buf' & Hst & Hcs & Hl);
      [lia | apply sprintf_d_C_no_NUL |].
    exists buf'. repeat split; [exact Hst | exact Hcs | lia].
Qed.

Lemma sprintf_fits_temp_string_witness :
  is_int (-40) /\
  sprintf_store (repeat "x"%char 16) (sprintf_d_C (-40)) =
    Some (list_ascii_of_string "-40 C " ++ NUL :: repeat "x"%char 9).
Proof.
  assert (Hi : is_int (-40)) by (unfold is_int; lia).
  split; [exact Hi|].
  destruct (sprintf_fits_temp_string (-40) (repeat "x"%char 16) Hi eq_refl)
    as (_ & _ & buf' & Hst & _ & _).
  rewrite Hst. vm_compute in Hst. injection Hst as <-. reflexivity.
Defined.

(** ** The loop of [main] *)

Lemma main_loop_pass_eq {status_t} (INST : Z) (fuel : nat) (t : Z)
    (temp_string : list ascii) (w : world status_t) :
  List.length temp_string = 16%nat -> (15 <= fuel)%nat ->
  exists temp_string',
    main_loop_pass INST fuel t temp_string w =
      Done (temp_string',
            mkWorld (trace w ++ pass_events INST t) (bus w)) /\
    List.length temp_string' = 16%nat.
Proof.
  intros Hbuf Hfuel. pose proof (sprintf_d_C_length t) as Hlen.
  destruct (sprintf_store_c_string temp_string (sprintf_d_C t))
    as (buf' & Hst & Hcs & Hl); [lia | apply sprintf_d_C_no_NUL |].
  exists buf'. split; [|lia].
  unfold main_loop_pass. rewrite Hst.
  unfold LCD_SendCommand. rewrite LCD_SendByte_eq.
  rewrite (LCD_SendString_at INST buf' 0 (sprintf_d_C t) fuel _ Hcs)
    by lia.
  rewrite OSIF_TimeDelay_eq. simpl trace. simpl bus.
  unfold pass_events. rewrite <- !app_assoc. reflexivity.
Qed.

Lemma decode_command_event (INST : Z) (b : Z) :
  0 <= b < 256 -> decode_trace [send_event INST b 0] = [Some (b, 0)].
Proof.
  intros Hb. unfold decode_trace, transfers.
  cbn [map filter is_send send_event payload_of].
  rewrite decode_i2c_payload by auto. reflexivity.
Qed.

Lemma decode_trace_app (tr1 tr2 : list event) :
  decode_trace (tr1 ++ tr2) = decode_trace tr1 ++ decode_trace tr2.
Proof. unfold decode_trace. rewrite transfers_app, map_app. reflexivity. Qed.

(** X9. One pass of the loop of [main], for any [int] temperature and the
    16 characters of [temp_string], runs to its end: it sends the command
    0xC0, then the text of the temperature character by character as
    data, then waits 1000; the controller reads the command and the very
    characters [sprintf] wrote, at most 15 transfers in all, and
    [temp_string] keeps its 16 characters. *)
Theorem main_loop_pass_display {status_t} (INST : Z) (fuel : nat) (t : Z)
    (temp_string : list ascii) (w : world status_t) :
  is_int t -> List.length temp_string = 16%nat -> (15 <= fuel)%nat ->
  exists temp_string' evs,
    main_loop_pass INST fuel t temp_string w =
      Done (temp_string', mkWorld (trace w ++ evs) (bus w)) /\
    List.length temp_string' = 16%nat /\
    evs = send_event INST 0xC0 0
            :: map (data_event INST) (sprintf_d_C t) ++ [EvDelay 1000] /\
    decode_trace evs =
      Some (0xC0, 0)
        :: map (fun c => Some (uint8_of_char c, 1)) (sprintf_d_C t) /\
    (List.length (transfers evs) <= 15)%nat.
Proof.
  intros _ Hbuf Hfuel.
  destruct (main_loop_pass_eq INST fuel t temp_string w Hbuf Hfuel)
    as (buf' & Hrun & Hl).
  exists buf', (pass_events INST t).
  split; [exact Hrun|]. split; [exact Hl|]. split; [reflexivity|].
  assert (Hdec : decode_trace (pass_events INST t) =
                 Some (0xC0, 0)
                   :: map (fun c => Some (uint8_of_char c, 1))
                          (sprintf_d_C t)).
  { unfold pass_events.
    change (send_event INST 0xC0 0
              :: map (data_event INST) (sprintf_d_C t) ++ [EvDelay 1000])
      with ([send_event INST 0xC0 0]
              ++ map (data_event INST) (sprintf_d_C t) ++ [EvDelay 1000]).
    rewrite !decode_trace_app, decode_command_event by lia.
    rewrite decode_data_events.
    change (decode_trace [EvDelay 1000]) with (@nil (option (Z * Z))).
    rewrite app_nil_r. reflexivity. }
  split; [exact Hdec|].
  assert (Hn : List.length (decode_trace (pass_events INST t)) =
               List.length (transfers (pass_events INST t)))
    by (unfold decode_trace; apply length_map).
  rewrite <- Hn, Hdec. simpl List.length. rewrite length_map.
  pose proof (sprintf_d_C_length t). lia.
Qed.

Lemma main_loop_pass_display_witness :
  exists temp_string' evs,
    main_loop_pass 0 16 27 (repeat NUL 16) world0 =
      Done (temp_string', mkWorld ([] ++ evs) (fun _ => tt)) /\
    List.length temp_string' = 16%nat /\
    evs = send_event 0 0xC0 0
            :: map (data_event 0) (sprintf_d_C 27) ++ [EvDelay 1000] /\
    decode_trace evs =
      Some (0xC0, 0)
        :: map (fun c => Some (uint8_of_char c, 1)) (sprintf_d_C 27) /\
    (List.length (transfers evs) <= 15)%nat.
Proof.
  apply (main_loop_pass_display 0 16 27 (repeat NUL 16) world0).
  - unfold is_int. lia.
  - reflexivity.
  - lia.
Defined.

Lemma main_loop_eq {status_t} (INST : Z) (fuel : nat) (temps : list Z) :
  (15 <= fuel)%nat ->
  forall (temp_string : list ascii) (w : world status_t),
    List.length temp_string = 16%nat ->
    exists temp_string',
      main_loop INST fuel temps temp_string w =
        Done (temp_string',
              mkWorld (trace w ++ flat_map (pass_events INST) temps)
                      (bus w)) /\
      List.length temp_string' = 16%nat.
Proof.
  intros Hfuel. induction temps as [| t temps IH]; intros buf w Hbuf.
  - exists buf. simpl. rewrite app_nil_r. destruct w. split; auto.
  - destruct (main_loop_pass_eq INST fuel t buf w Hbuf Hfuel)
      as (buf1 & Hpass & Hl1).
    destruct (IH buf1 (mkWorld (trace w ++ pass_events INST t) (bus w)) Hl1)
      as (buf2 & Hloop & Hl2).
    exists buf2. split; [|exact Hl2].
    cbn [main_loop]. rewrite Hpass, Hloop. simpl trace. simpl bus.
    cbn [flat_map]. rewrite <- app_assoc. reflexivity.
Qed.

Lemma Temperature_literal_c_string :
  c_string_at Temperature_literal 0 (list_ascii_of_string "Temperature:").
Proof.
  exists [], []. repeat split. repeat constructor; discriminate.
Qed.

Lemma bus_discipline_data_events (INST : Z) (s : list ascii) :
  bus_discipline INST (map (data_event INST) s).
Proof.
  unfold bus_discipline. rewrite forallb_forall. intros e He.
  apply in_map_iff in He. destruct He as (c & <- & _).
  apply send_event_ok; [apply uint8_of_char_range | right; reflexivity].
Qed.

Lemma bus_discipline_pass_events (INST : Z) (t : Z) :
  bus_discipline INST (pass_events INST t).
Proof.
  unfold pass_events.
  apply (bus_discipline_app INST [send_event INST 0xC0 0]).
  - unfold bus_discipline. cbn [forallb].
    rewrite send_event_ok by (try lia; left; reflexivity). reflexivity.
  - apply bus_discipline_app; [apply bus_discipline_data_events|].
    reflexivity.
Qed.

Lemma bus_discipline_passes (INST : Z) (temps : list Z) :
  bus_discipline INST (flat_map (pass_events INST) temps).
Proof.
  induction temps as [| t temps IH]; [reflexivity|].
  cbn [flat_map]. apply bus_discipline_app;
    [apply bus_discipline_pass_events | exact IH].
Qed.

(** X10. [main] never runs off its strings: for any [int] temperatures
    and the 16 characters of [temp_string], the initialisation, the static
    line and every pass of the loop run to their end.  The trace is that
    of [LCD_Init], then clear, delay 2, cursor to 0x80 and the twelve
    characters of ["Temperature:"], then for each temperature the events
    of its pass; every transfer on it keeps the discipline of the bus. *)
Theorem main_display_runs {status_t} (INST : Z) (fuel : nat)
    (temps : list Z) (temp_string : list ascii) (w : world status_t) :
  Forall is_int temps -> List.length temp_string = 16%nat ->
  (15 <= fuel)%nat ->
  exists temp_string' evs,
    main_display INST fuel temps temp_string w =
      Done (temp_string', mkWorld (trace w ++ evs) (bus w)) /\
    evs = flat_map (step_events INST) LCD_Init_steps
            ++ static_events INST
            ++ flat_map (pass_events INST) temps /\
    bus_discipline INST evs /\
    List.length temp_string' = 16%nat.
Proof.
  intros _ Hbuf Hfuel.
  unfold main_display. rewrite LCD_Init_eq.
  unfold LCD_SendCommand. rewrite LCD_SendByte_eq, OSIF_TimeDelay_eq.
  rewrite LCD_SendByte_eq.
  rewrite (LCD_SendString_at INST Temperature_literal 0
             (list_ascii_of_string "Temperature:") fuel _
             Temperature_literal_c_string) by (simpl; lia).
  match goal with
  | |- context [main_loop INST fuel temps temp_string ?w5] =>
      destruct (main_loop_eq INST fuel temps Hfuel temp_string w5 Hbuf)
        as (buf' & Hloop & Hl)
  end.
  exists buf'. eexists. split; [|split; [reflexivity|split]].
  - rewrite Hloop. simpl trace. simpl bus. unfold static_events.
    change (uint8 LCD_CLEAR_DISPLAY) with 0x01.
    rewrite <- !app_assoc. reflexivity.
  - apply bus_discipline_app; [|apply bus_discipline_app].
    + unfold bus_discipline, LCD_Init_steps.
      cbn [flat_map step_events app forallb].
      rewrite !send_event_ok by (try lia; left; reflexivity).
      reflexivity.
    + unfold static_events.
      apply (bus_discipline_app INST
               [send_event INST 0x01 0; EvDelay 2; send_event INST 0x80 0]);
        [|apply bus_discipline_data_events].
      unfold bus_discipline. cbn [forallb transfer_okb].
      rewrite !send_event_ok by (try lia; left; reflexivity).
      reflexivity.
    + apply bus_discipline_passes.
  - exact Hl.
Qed.

Lemma main_display_runs_witness :
  exists temp_string' evs,
    main_display 0 16 [27; -3; 500] (repeat NUL 16) world0 =
      Done (temp_string', mkWorld ([] ++ evs) (fun _ => tt)) /\
    evs = flat_map (step_events 0) LCD_Init_steps
            ++ static_events 0
            ++ flat_map (pass_events 0) [27; -3; 500] /\
    bus_discipline 0 evs /\
    List.length temp_string' = 16%nat.
Proof.
  apply (main_display_runs 0 16 [27; -3; 500] (repeat NUL 16) world0).
  - repeat constructor; unfold is_int; lia.
  - reflexivity.
  - lia.
Defined.

(** ** When the string writer returns *)

Lemma c_string_at_cons (mem : list ascii) (p : nat) (c : ascii)
    (s : list ascii) :
  nth_error mem p = Some c -> c <> NUL -> c_string_at mem (S p) s ->
  c_string_at mem p (c :: s).
Proof.
  intros Hnth Hc (pre' & post & Hmem & Hlen & Hs).
  assert (Hne : pre' <> []) by (intros ->; discriminate).
  destruct (exists_last Hne) as (pre & x & ->).
  rewrite length_app in Hlen. simpl in Hlen.
  assert (Hp : List.length pre = p) by lia.
  rewrite Hmem, <- app_assoc in Hnth. simpl app in Hnth.
  rewrite <- Hp, nth_error_middle in Hnth. injection Hnth as ->.
  exists pre, post. split; [|split].
  - rewrite Hmem, <- app_assoc. reflexivity.
  - exact Hp.
  - constructor; assumption.
Qed.

Lemma c_string_at_nil (mem : list ascii) (p : nat) :
  nth_error mem p = Some NUL -> c_string_at mem p [].
Proof.
  intros Hnth. destruct (nth_error_split mem p Hnth) as (pre & post & -> & Hl).
  exists pre, post. repeat split; [exact Hl | constructor].
Qed.

(** X11. [LCD_SendString] returns only on a terminated string: whenever a
    run returns, the memory holds from [str] on some characters without a
    NUL and then a NUL, fewer characters than the bound on the loop tests,
    and what the run added to the trace is the data transfers of these
    characters, in order. *)
Theorem LCD_SendString_returns_only_on_c_string {status_t} (INST : Z)
    (mem : list ascii) (fuel : nat) :
  forall (p : nat) (w w' : world status_t),
    LCD_SendString INST fuel mem p w = Done (tt, w') ->
    exists s,
      c_string_at mem p s /\
      (List.length s < fuel)%nat /\
      w' = mkWorld (trace w ++ map (data_event INST) s) (bus w).
Proof.
  induction fuel as [| fuel IH]; intros p w w' Hrun; [discriminate|].
  cbn [LCD_SendString] in Hrun.
  destruct (nth_error mem p) as [c |] eqn:Hnth; [|discriminate].
  destruct (Ascii.eqb c NUL) eqn:Hc.
  - apply Ascii.eqb_eq in Hc. subst c. injection Hrun as <-.
    exists []. split; [apply c_string_at_nil, Hnth|].
    split; [simpl; lia|]. simpl. rewrite app_nil_r. destruct w; reflexivity.
  - apply Ascii.eqb_neq in Hc. unfold LCD_SendData in Hrun.
    rewrite LCD_SendByte_eq in Hrun. apply IH in Hrun.
    destruct Hrun as (s & Hs & Hlen & ->).
    exists (c :: s). split; [apply c_string_at_cons; assumption|].
    split; [simpl; lia|]. simpl trace. simpl bus.
    rewrite <- app_assoc. reflexivity.
Qed.

Lemma LCD_SendString_returns_only_on_c_string_witness :
  exists s,
    c_string_at ["x"; "o"; "k"; NUL; "y"]%char 1 s /\
    (List.length s < 5)%nat /\
    mkWorld (map (data_event 0) ["o"; "k"]%char) (fun _ : nat => tt) =
      mkWorld ([] ++ map (data_event 0) s) (fun _ : nat => tt).
Proof.
  apply (LCD_SendString_returns_only_on_c_string
           0 ["x"; "o"; "k"; NUL; "y"]%char 5 1 world0).
  reflexivity.
Defined.
